(** * NwUtilities: a shallow embedding of [src/NwUtilties.py]

    The class [NwUtilities] is a manager holding three session slots
    ([_junos_device], [_jumphost_client], [_target_client]).  Every method
    is modelled as a computation in a small state-and-exception monad
    [M]: the state is the manager together with the logger output, the
    trace of calls made into the third-party libraries (PyEZ, paramiko,
    scp, smtplib), a counter that names freshly constructed library
    objects, and the local variable frame of the running method (the
    source inspects it with [locals()]).  Whether a library call raises
    is decided by an environment [Env], as are the file system and the
    configuration file. *)

From Stdlib Require Import Ascii String List Bool Arith Lia.
From Stdlib Require Import DecimalString.
Import ListNotations.
Open Scope string_scope.

(** ** Python values *)

(** A library object (PyEZ [Device], paramiko [SSHClient], a channel) is
    named by the number it received when it was constructed. *)
Definition handle := nat.

(** Python truthiness of an [Optional[str]]: [None] and [""] are false. *)
Definition truthy (o : option string) : bool :=
  match o with
  | Some s => negb (String.eqb s "")
  | None => false
  end.

(** [str()] of the values interpolated in f-strings. *)
Definition str_nat (n : nat) : string := NilZero.string_of_uint (Nat.to_uint n).

Definition str_opt (o : option string) : string :=
  match o with Some s => s | None => "None" end.

Definition str_opt_nat (o : option nat) : string :=
  match o with Some n => str_nat n | None => "None" end.

(** ** Exceptions *)

Inductive exc : Type :=
| ValueError (msg : string)
| FileNotFoundError (msg : string)
| IsADirectoryError (msg : string)
| PermissionError (msg : string)
(** an exception raised inside a library, with its class name *)
| LibError (cls : string) (msg : string).

Definition str_exc (e : exc) : string :=
  match e with
  | ValueError m | FileNotFoundError m | IsADirectoryError m | PermissionError m
  | LibError _ m => m
  end.

(** Subclasses of the library exception classes the source catches:
    PyEZ's [ConnectError], paramiko's [SSHException] and its
    [AuthenticationException]. *)
Definition subclasses (cls : string) : list string :=
  if String.eqb cls "ConnectError" then
    ["ConnectAuthError"; "ConnectRefusedError"; "ConnectTimeoutError";
     "ConnectUnknownHostError"; "ConnectNotMasterError"; "ConnectClosedError";
     "ProbeError"]
  else if String.eqb cls "SSHException" then
    ["AuthenticationException"; "BadAuthenticationType";
     "PasswordRequiredException"; "PartialAuthentication"; "BadHostKeyException";
     "ChannelException"; "ProxyCommandFailure"; "IncompatiblePeer";
     "MessageOrderError"; "ConfigParseError"; "CouldNotCanonicalize"]
  else if String.eqb cls "AuthenticationException" then
    ["BadAuthenticationType"; "PasswordRequiredException"; "PartialAuthentication"]
  else [].

(** [isinstance(e, cls)] *)
Definition isinstance (e : exc) (cls : string) : bool :=
  match e with
  | LibError k _ => String.eqb k cls || existsb (String.eqb k) (subclasses cls)
  | ValueError _ => String.eqb cls "ValueError"
  | FileNotFoundError _ => String.eqb cls "FileNotFoundError"
  | IsADirectoryError _ => String.eqb cls "IsADirectoryError"
  | PermissionError _ => String.eqb cls "PermissionError"
  end.

(** ** E-mail messages (MIMEMultipart) *)

Inductive mime_part : Type :=
| MIMEText_html (html : string)
(** [MIMEApplication(data, _subtype='txt')] with its attachment filename *)
| MIMEApplication_txt (filename : string) (data : list Byte.byte).

Record message : Type := mkMessage {
  headers : list (string * string);
  parts : list mime_part
}.

(** ** Calls into the libraries *)

Inductive call : Type :=
| DeviceInit (dev : handle) (host user passwd : option string) (port : option nat)
| DeviceOpen (dev : handle)
| DeviceClose (dev : handle)
| StartShellInit (dev : handle)
| SSHLoadSystemHostKeys (c : handle)
| SSHSetMissingHostKeyPolicy (c : handle)
| SSHConnect (c : handle) (host user passwd : option string) (port : option nat)
    (sock : option handle)
| TransportOpenChannel (c : handle) (kind : string)
    (dest_addr src_addr : option string * option nat)
| SSHClose (c : handle)
| SCPPut (c : handle) (src dst : string)
| SCPGet (c : handle) (src dst : string)
| SMTPConnect (server : string) (port : nat)
| SMTPSendMessage (m : message)
(** [SMTP.__exit__]: the [QUIT] command and the closing of the socket *)
| SMTPQuit (server : string) (port : nat)
(** [print(text)] on standard output, which raises when the stream cannot
    encode the text or has been closed *)
| PrintStdout (text : string).

(** ** The environment *)

Inductive fs_entry : Type :=
(** a regular file that can be opened and read *)
| RegularFile (data : list Byte.byte)
| Directory
(** any other existing path: [regular] tells whether [os.path.isfile]
    holds (a regular file without read permission) or not (a FIFO, a
    device, a socket); [read] is what [open(path, 'rb')] then [f.read()]
    give, the bytes or the exception raised *)
| OtherEntry (regular : bool) (read : exc + list Byte.byte).

Record Env : Type := mkEnv {
  (** [Some e] when the library call raises [e] *)
  lib : call -> option exc;
  (** the local file system: what lives at a path *)
  fs : string -> option fs_entry;
  (** [_config.ini]: section, key -> value *)
  config : string -> string -> option string;
  (** [dev.hostname] of a PyEZ device *)
  device_hostname : handle -> string;
  (** [datetime.now().strftime(...)] *)
  now : string
}.

(** ** The manager and the world *)

Record manager : Type := mkManager {
  _junos_device : option handle;
  _jumphost_client : option handle;
  _target_client : option handle
}.

Inductive level : Type := DEBUG | INFO | WARNING | ERROR.

Record world : Type := mkWorld {
  self : manager;
  logs : list (level * string);
  trace : list call;
  next_handle : nat;
  (** the bound local variables of the running method *)
  frame : list (string * handle)
}.

Definition set_self (m : manager) (w : world) : world :=
  mkWorld m (logs w) (trace w) (next_handle w) (frame w).
Definition set_junos_device (o : option handle) (m : manager) : manager :=
  mkManager o (_jumphost_client m) (_target_client m).
Definition set_jumphost_client (o : option handle) (m : manager) : manager :=
  mkManager (_junos_device m) o (_target_client m).
Definition set_target_client (o : option handle) (m : manager) : manager :=
  mkManager (_junos_device m) (_jumphost_client m) o.

(** [__init__]: no session cached; the config file only feeds [Env]. *)
Definition init_manager : manager := mkManager None None None.

(** ** The monad *)

Inductive result (A : Type) : Type :=
| Ok (a : A)
| Err (e : exc).
Arguments Ok {A} a.
Arguments Err {A} e.

Definition M (A : Type) : Type := world -> result A * world.

Definition ret {A} (a : A) : M A := fun w => (Ok a, w).

Definition bind {A B} (m : M A) (k : A -> M B) : M B :=
  fun w => match m w with
           | (Ok a, w') => k a w'
           | (Err e, w') => (Err e, w')
           end.

Notation "x <- m ;; k" := (bind m (fun x => k))
  (at level 61, m at next level, right associativity).
Notation "m ;; k" := (bind m (fun _ => k))
  (at level 61, right associativity).

Definition raise {A} (e : exc) : M A := fun w => (Err e, w).

(** [try: body except Exception as e: handler e] *)
Definition try_except {A} (body : M A) (handler : exc -> M A) : M A :=
  fun w => match body w with
           | (Err e, w') => handler e w'
           | r => r
           end.

Definition log (l : level) (msg : string) : M unit :=
  fun w => (Ok tt, mkWorld (self w) (logs w ++ [(l, msg)]) (trace w)
                           (next_handle w) (frame w)).

Definition get_self : M manager := fun w => (Ok (self w), w).

Definition modify_self (f : manager -> manager) : M unit :=
  fun w => (Ok tt, set_self (f (self w)) w).

(** construct a new library object *)
Definition fresh : M handle :=
  fun w => (Ok (next_handle w),
            mkWorld (self w) (logs w) (trace w) (S (next_handle w)) (frame w)).

(** entering a method: its frame holds no local object yet *)
Definition enter_frame : M unit :=
  fun w => (Ok tt, mkWorld (self w) (logs w) (trace w) (next_handle w) []).

Definition set_local (x : string) (h : handle) : M unit :=
  fun w => (Ok tt, mkWorld (self w) (logs w) (trace w) (next_handle w)
                           ((x, h) :: frame w)).

Definition lookup_local (x : string) : M (option handle) :=
  fun w => (Ok (option_map snd (find (fun p => String.eqb (fst p) x) (frame w))), w).

(** Python truthiness of an [Optional[List[str]]] *)
Definition truthy_list (o : option (list string)) : bool :=
  match o with Some (_ :: _) => true | _ => false end.

Definition list_of_opt (o : option (list string)) : list string :=
  match o with Some l => l | None => [] end.

(** [os.path.join(a, b)] (posixpath) *)
Definition os_path_join (a b : string) : string :=
  if String.prefix "/" b then b
  else if String.eqb a "" then b
  else match String.get (String.length a - 1) a with
       | Some "/"%char => a ++ b
       | _ => a ++ "/" ++ b
       end.

(** [msg.attach(part)] *)
Definition attach (msg : message) (p : mime_part) : message :=
  mkMessage (headers msg) (parts msg ++ [p]).

Definition dq : string := String (Ascii.ascii_of_nat 34) EmptyString.

Definition nl : string := String (Ascii.ascii_of_nat 10) EmptyString.

(** The HTML body of [send_email]: the f-string template line by line,
    with its indentation, [{{] and [}}] standing for braces. *)
Definition html_body (greet body email_footer : string) : string :=
  String.concat nl
    ["            <html>";
     "                <head>";
     "                    <meta charset=" ++ dq ++ "UTF-8" ++ dq ++ ">";
     "                    <style>";
     "                        body {";
     "                            font-family: Arial, sans-serif;";
     "                            line-height: 1.6;";
     "                            color: #333333;";
     "                        }";
     "                    </style>";
     "                </head>";
     "                <body>";
     "                    <p>" ++ greet ++ "</p>";
     "                    <p>" ++ body ++ "</p>";
     "                    <p></p>";
     "                    <p>- Grasshopper Automation</p>";
     "                    " ++ (if String.eqb email_footer "" then ""
                                else "<p>- " ++ email_footer ++ "</p>");
     "                </body>";
     "            </html>";
     "            "].

Section Methods.

Variable E : Env.

(** a call into a library, recorded in the trace; it raises when the
    environment says so *)
Definition lib_call (c : call) : M unit :=
  fun w =>
    let w' := mkWorld (self w) (logs w) (trace w ++ [c]) (next_handle w) (frame w) in
    match lib E c with
    | None => (Ok tt, w')
    | Some e => (Err e, w')
    end.

Definition os_path_exists (p : string) : bool :=
  match fs E p with Some _ => true | None => false end.

(** ** Junos connection methods *)

(** [junos_open_connection(hostname, username, password, port=22)] *)
Definition junos_open_connection (hostname username password : option string)
    (port : option nat) : M handle :=
  s <- get_self;;
  match _junos_device s with
  | Some dev =>
      log INFO "Junos connection already open";;
      ret dev
  | None =>
      try_except
        (log INFO ("Connecting to Junos device: " ++ str_opt hostname);;
         dev <- fresh;;
         lib_call (DeviceInit dev hostname username password port);;
         lib_call (DeviceOpen dev);;
         modify_self (set_junos_device (Some dev));;
         log INFO ("Successfully connected to " ++ device_hostname E dev);;
         ret dev)
        (fun e =>
           if isinstance e "ConnectAuthError" then
             log ERROR ("Authentication failed for " ++ str_opt hostname ++ ": " ++ str_exc e);;
             raise e
           else if isinstance e "ConnectError" then
             log ERROR ("Connection failed to " ++ str_opt hostname ++ ": " ++ str_exc e);;
             raise e
           else
             log ERROR ("Unexpected error connecting to " ++ str_opt hostname ++ ": "
                        ++ str_exc e);;
             raise e)
  end.

(** [junos_close_connection()] *)
Definition junos_close_connection : M unit :=
  s <- get_self;;
  match _junos_device s with
  | Some dev =>
      try_except
        (let hostname := device_hostname E dev in
         lib_call (DeviceClose dev);;
         modify_self (set_junos_device None);;
         log INFO ("Connection to " ++ hostname ++ " closed"))
        (fun e => log ERROR ("Error closing Junos connection: " ++ str_exc e))
  | None => log WARNING "No active Junos connection to close"
  end.

(** ** Jumphost connection methods *)

(** [jumphost_connect(hostname, username, password, port=22)] *)
Definition jumphost_connect (hostname username password : option string)
    (port : option nat) : M handle :=
  s <- get_self;;
  match _jumphost_client s with
  | Some c =>
      log INFO "Jumphost connection already open";;
      ret c
  | None =>
      try_except
        (log INFO ("Connecting to jumphost: " ++ str_opt username ++ "@"
                   ++ str_opt hostname ++ ":" ++ str_opt_nat port);;
         jumphost_client <- fresh;;
         lib_call (SSHLoadSystemHostKeys jumphost_client);;
         lib_call (SSHSetMissingHostKeyPolicy jumphost_client);;
         lib_call (SSHConnect jumphost_client hostname username password port None);;
         modify_self (set_jumphost_client (Some jumphost_client));;
         log INFO "Successfully connected to jumphost";;
         ret jumphost_client)
        (fun e =>
           if isinstance e "AuthenticationException" then
             log ERROR ("Authentication failed for jumphost: " ++ str_exc e);;
             raise e
           else if isinstance e "SSHException" then
             log ERROR ("SSH connection failed to jumphost: " ++ str_exc e);;
             raise e
           else
             log ERROR ("Unexpected error connecting to jumphost: " ++ str_exc e);;
             raise e)
  end.

(** [jumphost_disconnect()] *)
Definition jumphost_disconnect : M unit :=
  s <- get_self;;
  match _jumphost_client s with
  | Some c =>
      try_except
        (lib_call (SSHClose c);;
         modify_self (set_jumphost_client None);;
         log INFO "Jumphost connection closed")
        (fun e => log ERROR ("Error closing jumphost connection: " ++ str_exc e))
  | None => log WARNING "No active jumphost connection to close"
  end.

(** [if 'x' in locals(): x.close()] *)
Definition close_if_local (x : string) : M unit :=
  o <- lookup_local x;;
  match o with
  | Some c => lib_call (SSHClose c)
  | None => ret tt
  end.

(** [jumphost_transport_connect(hostname, username, password, port=22,
    dst_host, dst_username, dst_password, dst_port=22)]; returns
    [(target, jumphost)]. *)
Definition jumphost_transport_connect (hostname username password : option string)
    (port : option nat) (dst_host dst_username dst_password : option string)
    (dst_port : option nat) : M (handle * handle) :=
  if negb (truthy dst_host) then
    raise (ValueError "dst_host must be set for jumphost transport connection")
  else
  s <- get_self;;
  match _target_client s, _jumphost_client s with
  | Some t, Some j =>
      log INFO "Jumphost transport connection already open";;
      ret (t, j)
  | _, _ =>
      enter_frame;;
      try_except
        (log INFO ("Connecting to jumphost: " ++ str_opt username ++ "@"
                   ++ str_opt hostname ++ ":" ++ str_opt_nat port);;
         jumphost <- fresh;;
         set_local "jumphost" jumphost;;
         lib_call (SSHLoadSystemHostKeys jumphost);;
         lib_call (SSHSetMissingHostKeyPolicy jumphost);;
         lib_call (SSHConnect jumphost hostname username password port None);;
         log INFO "Jumphost connected, creating tunnel to target device";;
         let src_address := (hostname, port) in
         let dest_address := (dst_host, dst_port) in
         lib_call (TransportOpenChannel jumphost "direct-tcpip" dest_address src_address);;
         jumpbox_channel <- fresh;;
         log INFO ("Connecting to target device: " ++ str_opt dst_host);;
         target <- fresh;;
         set_local "target" target;;
         lib_call (SSHSetMissingHostKeyPolicy target);;
         lib_call (SSHConnect target dst_host dst_username dst_password dst_port
                     (Some jumpbox_channel));;
         modify_self (set_target_client (Some target));;
         modify_self (set_jumphost_client (Some jumphost));;
         log INFO ("Successfully connected to target device: " ++ str_opt dst_host);;
         ret (target, jumphost))
        (fun e =>
           log ERROR ("Failed to establish jumphost transport connection: " ++ str_exc e);;
           close_if_local "target";;
           close_if_local "jumphost";;
           raise e)
  end.

(** [jumphost_transport_disconnect()] *)
Definition jumphost_transport_disconnect : M unit :=
  s <- get_self;;
  (match _target_client s with
   | Some t =>
       try_except
         (lib_call (SSHClose t);;
          modify_self (set_target_client None);;
          log INFO "Target connection closed")
         (fun e => log ERROR ("Error closing target connection: " ++ str_exc e))
   | None => ret tt
   end);;
  s' <- get_self;;
  match _jumphost_client s' with
  | Some j =>
      try_except
        (lib_call (SSHClose j);;
         modify_self (set_jumphost_client None);;
         log INFO "Jumphost connection closed")
        (fun e => log ERROR ("Error closing jumphost connection: " ++ str_exc e))
  | None => ret tt
  end.

(** [close_all_connections()], also run by [__exit__] *)
Definition close_all_connections : M unit :=
  log INFO "Closing all connections";;
  junos_close_connection;;
  jumphost_transport_disconnect;;
  jumphost_disconnect;;
  log INFO "All connections closed".

(** ** File transfer methods *)

(** [copy_file_local_to_remote(src_path, dst_path, use_jumphost=True)].
    The block [with SCPClient(jumphost.get_transport()) as scp:
    scp.put(source, destination)] is the single library call [SCPPut]. *)
Definition copy_file_local_to_remote (src_path dst_path : option string)
    (use_jumphost : bool) : M bool :=
  let source := str_opt src_path in
  let destination := str_opt dst_path in
  if negb (truthy src_path) || negb (truthy dst_path) then
    log ERROR "Source and destination paths must be provided";;
    ret false
  else if negb (os_path_exists source) then
    raise (FileNotFoundError ("Source file not found: " ++ source))
  else
    try_except
      (if use_jumphost then
         log INFO ("Copying " ++ source ++ " to " ++ destination ++ " via jumphost");;
         jumphost <- jumphost_connect None None None (Some 22);;
         lib_call (SCPPut jumphost source destination);;
         log INFO ("Successfully copied " ++ source ++ " to " ++ destination);;
         ret true
       else
         log ERROR "Direct SCP not implemented. Use use_jumphost=True";;
         ret false)
      (fun e => log ERROR ("Failed to copy file: " ++ str_exc e);; raise e).

(** [copy_file_remote_to_local(src_path, dst_path, use_jumphost=True)] *)
Definition copy_file_remote_to_local (src_path dst_path : option string)
    (use_jumphost : bool) : M bool :=
  let source := str_opt src_path in
  let destination := str_opt dst_path in
  if negb (truthy src_path) || negb (truthy dst_path) then
    log ERROR "Source and destination paths must be provided";;
    ret false
  else
    try_except
      (if use_jumphost then
         log INFO ("Copying " ++ source ++ " from remote to " ++ destination);;
         jumphost <- jumphost_connect None None None (Some 22);;
         lib_call (SCPGet jumphost source destination);;
         log INFO ("Successfully copied " ++ source ++ " to " ++ destination);;
         ret true
       else
         log ERROR "Direct SCP not implemented. Use use_jumphost=True";;
         ret false)
      (fun e => log ERROR ("Failed to copy file: " ++ str_exc e);; raise e).

(** ** E-mail *)

(** [open(file_path, 'rb')] then [f.read()]: the bytes read, or the
    exception raised *)
Definition open_read (file_path : string) : exc + list Byte.byte :=
  match fs E file_path with
  | None => inl (FileNotFoundError ("[Errno 2] No such file or directory: '"
                                    ++ file_path ++ "'"))
  | Some Directory => inl (IsADirectoryError ("[Errno 21] Is a directory: '"
                                              ++ file_path ++ "'"))
  | Some (RegularFile data) => inr data
  | Some (OtherEntry _ read) => read
  end.

(** [self._get_config(section, key, default)] *)
Definition _get_config (section key default : string) : string :=
  match config E section key with Some v => v | None => default end.

(** the attachment loop of [send_email]: [msg] is the message being
    built, to which each found file is attached *)
Fixpoint attach_files (attach_path : string) (attachments : list string)
    (msg : message) : M message :=
  match attachments with
  | [] => ret msg
  | filename :: rest =>
      let file_path := os_path_join attach_path filename in
      if negb (os_path_exists file_path) then
        log WARNING ("Attachment not found: " ++ file_path);;
        attach_files attach_path rest msg
      else
        match open_read file_path with
        | inl e => raise e
        | inr data =>
            let msg' := attach msg (MIMEApplication_txt filename data) in
            log DEBUG ("Attached: " ++ filename);;
            attach_files attach_path rest msg'
        end
  end.

(** the required parameters, in the order of the dict built by [send_email] *)
Definition required_email_params (email_from email_to email_subject greeting email_body
    : option string) : list (string * option string) :=
  [("email_from", email_from); ("email_to", email_to);
   ("email_subject", email_subject); ("greeting", greeting);
   ("email_body", email_body)].

Definition missing_email_params (email_from email_to email_subject greeting email_body
    : option string) : list string :=
  map fst (filter (fun p => negb (truthy (snd p)))
             (required_email_params email_from email_to email_subject greeting email_body)).

(** [send_email(email_from, email_to, email_subject, email_body, greeting,
    cc_emails, destination_path, attach_list, smtp_server='localhost',
    smtp_port=25)]; in the block [with smtplib.SMTP(server, port) as server:
    server.send_message(msg)] the constructor connects ([SMTPConnect]),
    and [__exit__] ([SMTPQuit]) runs whether or not [send_message]
    raised: an exception of [__exit__] replaces the one of
    [send_message]. *)
Definition send_email (email_from email_to email_subject email_body greeting : option string)
    (cc_emails : option (list string)) (destination_path : option string)
    (attach_list : option (list string)) (smtp_server : string) (smtp_port : nat)
    : M bool :=
  let from_addr := email_from in
  let to_addr := email_to in
  let subject := email_subject in
  let body := email_body in
  let greet := greeting in
  let cc_list := cc_emails in
  let attach_path := destination_path in
  let attachments := attach_list in
  if negb (forallb truthy [from_addr; to_addr; subject; greet; body]) then
    let missing := missing_email_params from_addr to_addr subject greet body in
    raise (ValueError ("Missing required email parameters: " ++ String.concat ", " missing))
  else
    try_except
      (log INFO ("Preparing email to " ++ str_opt to_addr);;
       let hdrs := [("Date", now E); ("From", str_opt from_addr);
                    ("To", str_opt to_addr); ("Subject", str_opt subject)] in
       let hdrs := if truthy_list cc_list
                   then (hdrs ++ [("Cc", String.concat ", " (list_of_opt cc_list))])%list
                   else hdrs in
       let email_footer := _get_config "email_data" "email_footer" "" in
       let html := html_body (str_opt greet) (str_opt body) email_footer in
       (* [MIMEMultipart()] starts with these two headers *)
       let msg := mkMessage (("Content-Type", "multipart/mixed") :: ("MIME-Version", "1.0")
                             :: hdrs) [MIMEText_html html] in
       msg <- (if truthy_list attachments && truthy attach_path then
                 log INFO ("Attaching " ++ str_nat (length (list_of_opt attachments))
                           ++ " file(s)");;
                 attach_files (str_opt attach_path) (list_of_opt attachments) msg
               else ret msg);;
       log INFO ("Sending email via " ++ smtp_server ++ ":" ++ str_nat smtp_port);;
       lib_call (SMTPConnect smtp_server smtp_port);;
       try_except (lib_call (SMTPSendMessage msg))
         (fun e => lib_call (SMTPQuit smtp_server smtp_port);; raise e);;
       lib_call (SMTPQuit smtp_server smtp_port);;
       log INFO ("Email sent successfully to " ++ str_opt to_addr);;
       lib_call (PrintStdout ("✓ Email sent to " ++ str_opt to_addr));;
       ret true)
      (fun e => log ERROR ("Failed to send email: " ++ str_exc e);; raise e).

(** ** Shell mode *)

(** [connect_junos_shell()]: [junos_open_connection()] with its defaults,
    then [StartShell(dev)], a fresh library object *)
Definition connect_junos_shell : M handle :=
  try_except
    (dev <- junos_open_connection None None None (Some 22);;
     shell <- fresh;;
     lib_call (StartShellInit dev);;
     log INFO ("Connected to shell mode of " ++ device_hostname E dev);;
     ret shell)
    (fun e => log ERROR ("Failed to start shell session: " ++ str_exc e);; raise e).

(** ** File system methods *)

(** [os.path.isdir(path)] and [os.path.isfile(path)] *)
Definition os_path_isdir (p : string) : bool :=
  match fs E p with Some Directory => true | _ => false end.

Definition os_path_isfile (p : string) : bool :=
  match fs E p with
  | Some (RegularFile _) => true
  | Some (OtherEntry regular _) => regular
  | _ => false
  end.

(** [check_directory_exists(directory_path)] *)
Definition check_directory_exists (directory_path : option string) : M bool :=
  let path := directory_path in
  if negb (truthy path) then
    log ERROR "No directory path provided";;
    ret false
  else
    let exists_ := os_path_isdir (str_opt path) in
    (if exists_ then log INFO ("Directory exists: " ++ str_opt path)
     else log WARNING ("Directory does not exist: " ++ str_opt path));;
    ret exists_.

(** [check_file_exists(filename)] *)
Definition check_file_exists (filename : option string) : M bool :=
  let file := filename in
  if negb (truthy file) then
    log ERROR "No filename provided";;
    ret false
  else
    let exists_ := os_path_isfile (str_opt file) in
    (if exists_ then log INFO ("File exists: " ++ str_opt file)
     else log WARNING ("File does not exist: " ++ str_opt file));;
    ret exists_.

(** [create_directory(directory_path)]; [path_mkdir p] is [Some e] when
    [Path(p).mkdir(parents=True, exist_ok=True)] raises [e]. *)
Definition create_directory (path_mkdir : string -> option exc)
    (directory_path : option string) : M bool :=
  let path := directory_path in
  if negb (truthy path) then
    log ERROR "No directory path provided";;
    ret false
  else
    try_except
      (match path_mkdir (str_opt path) with
       | Some e => raise e
       | None => ret tt
       end;;
       log INFO ("Directory created/verified: " ++ str_opt path);;
       ret true)
      (fun e =>
         log ERROR ("Failed to create directory " ++ str_opt path ++ ": " ++ str_exc e);;
         ret false).

End Methods.

(** * Proof tools *)

Create HintDb nwu.

(** ** Strings *)

Lemma string_append_nil_r (s : string) : s ++ "" = s.
Proof. induction s as [| a s IH]; simpl; [reflexivity | now rewrite IH]. Qed.

Lemma string_append_assoc (s1 s2 s3 : string) : s1 ++ s2 ++ s3 = (s1 ++ s2) ++ s3.
Proof. induction s1 as [| a s1 IH]; simpl; [reflexivity | now rewrite IH]. Qed.

(** every member of [l] occurs in [String.concat sep l] *)
Lemma concat_contains (sep x : string) (l : list string) :
  In x l -> exists pre post, String.concat sep l = pre ++ x ++ post.
Proof.
  induction l as [| a l IH]; intros Hin; [destruct Hin |].
  destruct Hin as [<- | Hin].
  - destruct l as [| b l].
    + exists "", "". simpl. now rewrite string_append_nil_r.
    + exists "", (sep ++ String.concat sep (b :: l)). reflexivity.
  - destruct l as [| b l]; [destruct Hin |].
    destruct (IH Hin) as (pre & post & Hc).
    exists (a ++ sep ++ pre)%string, post.
    change (String.concat sep (a :: b :: l)) with (a ++ sep ++ String.concat sep (b :: l)).
    rewrite Hc, !string_append_assoc. reflexivity.
Qed.

(** log messages stay folded while proofs compute *)
#[local] Arguments String.append : simpl never.

(** unfold the monad and the methods down to matches on library outcomes *)
Ltac run :=
  repeat progress (unfold jumphost_transport_connect, jumphost_transport_disconnect,
          junos_open_connection, junos_close_connection, jumphost_connect,
          jumphost_disconnect, copy_file_local_to_remote, send_email,
          close_if_local, bind, ret, raise, try_except, log, get_self,
          modify_self, fresh, enter_frame, set_local, lookup_local,
          lib_call, os_path_exists in *; cbn in *).

(** case on every library call still undecided in goal or hypotheses *)
Ltac split_lib :=
  repeat match goal with
    | |- context [match lib ?E ?c with _ => _ end] => destruct (lib E c) eqn:?; cbn in *
    | H : context [match lib ?E ?c with _ => _ end] |- _ =>
        destruct (lib E c) eqn:?; cbn in *
    end.

(** no library object cached by the manager has a number at or beyond
    the counter of the next fresh object *)
Definition handles_below (w : world) : Prop :=
  forall h, _junos_device (self w) = Some h \/ _jumphost_client (self w) = Some h
            \/ _target_client (self w) = Some h -> h < next_handle w.

(** The world [w'] extends [w] by library calls [cs] only. *)
Definition trace_extends (w w' : world) (cs : list call) : Prop :=
  trace w' = (trace w ++ cs)%list.

(** a concrete start: a fresh manager, nothing logged, nothing called *)
Definition world0 : world := mkWorld init_manager [] [] 0 [].

(** an environment in which every library call succeeds *)
Definition env_ok : Env :=
  mkEnv (fun _ => None) (fun _ => None) (fun _ _ => None) (fun _ => "dev") "now".

(** * Tunnel construction: [jumphost_transport_connect] *)

(** C5: with [dst_host] empty or absent, [jumphost_transport_connect]
    raises [ValueError] and leaves the world as it was: no library call,
    no object constructed, no cached slot touched, whatever the other
    arguments and the cached sessions. *)
Theorem transport_connect_empty_dst_host E w hostname username password port
    dst_host dst_username dst_password dst_port :
  dst_host = None \/ dst_host = Some "" ->
  jumphost_transport_connect E hostname username password port
    dst_host dst_username dst_password dst_port w
  = (Err (ValueError "dst_host must be set for jumphost transport connection"), w).
Proof.
  intros [-> | ->]; reflexivity.
Qed.

Lemma transport_connect_empty_dst_host_witness :
  ((None : option string) = None \/ (None : option string) = Some "") /\
  jumphost_transport_connect env_ok (Some "jump") (Some "u") (Some "p") (Some 22)
    None (Some "u2") (Some "p2") (Some 22) world0
  = (Err (ValueError "dst_host must be set for jumphost transport connection"), world0).
Proof.
  split; [left; reflexivity |].
  apply transport_connect_empty_dst_host. left. reflexivity.
Defined.

(** C9: whenever [jumphost_transport_connect] raises, the manager (its
    [_target_client] and [_jumphost_client] slots included) is exactly
    what it was before the call. *)
Theorem transport_connect_error_keeps_slots E w hostname username password port
    dst_host dst_username dst_password dst_port e w' :
  jumphost_transport_connect E hostname username password port
    dst_host dst_username dst_password dst_port w = (Err e, w') ->
  self w' = self w.
Proof.
  unfold jumphost_transport_connect.
  destruct (truthy dst_host); cbn.
  2:{ intros H; inversion H; reflexivity. }
  destruct (self w) as [jd jc tc] eqn:Hs; cbn.
  intros H.
  destruct tc, jc; run; rewrite ?Hs in H; cbn in H;
    split_lib; cbn in H; inversion H; subst; cbn; try rewrite Hs; reflexivity.
Qed.

(** C10: with a cached jump host but no cached target, and a non-empty
    [dst_host], [jumphost_transport_connect] does not reuse the cached
    jump-host client [j]: it constructs a fresh client (the first library
    call is made on it), never closes [j], and on success the slot
    [_jumphost_client] holds the new client, which it has connected. *)
Theorem transport_connect_fresh_jumphost E w j hostname username password port
    dst_host dst_username dst_password dst_port r w' :
  handles_below w ->
  _jumphost_client (self w) = Some j ->
  _target_client (self w) = None ->
  truthy dst_host = true ->
  jumphost_transport_connect E hostname username password port
    dst_host dst_username dst_password dst_port w = (r, w') ->
  next_handle w <> j /\
  exists cs, trace_extends w w' cs /\
    hd_error cs = Some (SSHLoadSystemHostKeys (next_handle w)) /\
    ~ In (SSHClose j) cs /\
    forall t j', r = Ok (t, j') ->
      j' = next_handle w /\ _jumphost_client (self w') = Some j' /\
      In (SSHConnect j' hostname username password port None) cs.
Proof.
  intros Hb Hj Ht Hd H.
  assert (Hlt : j < next_handle w) by (apply Hb; right; left; exact Hj).
  split; [lia |].
  unfold jumphost_transport_connect in H. rewrite Hd in H. cbn in H.
  rewrite Ht in H.
  destruct (_jumphost_client (self w)) eqn:Hs; [| discriminate].
  run; split_lib; inversion H; subst; clear H; unfold trace_extends; cbn;
    rewrite <- ?app_assoc; cbn;
    eexists; (split; [reflexivity |]);
    (split; [reflexivity |]);
    (split; [cbn; intros Hin; repeat (destruct Hin as [Hin | Hin]);
             try discriminate; try (injection Hin; lia); contradiction |]);
    intros t j' Hr; inversion Hr; subst; cbn; auto 10.
Qed.

(** * The cleanup of a failed tunnel *)

(** The failing run of C1: the tunnel's target [SSHClient] (object 2,
    after the jump host 0 and the channel 1) fails to connect, and
    closing it fails too. *)
Definition env_target_close_fails : Env :=
  mkEnv (fun c => match c with
                  | SSHConnect 2 _ _ _ _ _ =>
                      Some (LibError "AuthenticationException" "Authentication failed.")
                  | SSHClose 2 => Some (LibError "SSHException" "SSH session not active")
                  | _ => None
                  end)
        (fun _ => None) (fun _ _ => None) (fun _ => "dev") "now".

(** C1 (the code's behaviour at the failing input): the error of the
    cleanup [target.close()] replaces the original authentication error,
    and [jumphost.close()] is never attempted (no [SSHClose 0] in the
    trace). *)
Lemma transport_connect_cleanup_error_escapes :
  jumphost_transport_connect env_target_close_fails (Some "jump") (Some "u") (Some "p")
    (Some 22) (Some "target") (Some "u2") (Some "p2") (Some 22) world0
  = (Err (LibError "SSHException" "SSH session not active"),
     snd (jumphost_transport_connect env_target_close_fails (Some "jump") (Some "u")
            (Some "p") (Some 22) (Some "target") (Some "u2") (Some "p2") (Some 22) world0))
  /\ trace (snd (jumphost_transport_connect env_target_close_fails (Some "jump") (Some "u")
            (Some "p") (Some 22) (Some "target") (Some "u2") (Some "p2") (Some 22) world0))
     = [SSHLoadSystemHostKeys 0; SSHSetMissingHostKeyPolicy 0;
        SSHConnect 0 (Some "jump") (Some "u") (Some "p") (Some 22) None;
        TransportOpenChannel 0 "direct-tcpip" (Some "target", Some 22) (Some "jump", Some 22);
        SSHSetMissingHostKeyPolicy 2;
        SSHConnect 2 (Some "target") (Some "u2") (Some "p2") (Some 22) (Some 1);
        SSHClose 2].
Proof. split; vm_compute; reflexivity. Qed.

(** a manager holding a jump-host client (object 0) but no target *)
Definition world_jump_only : world :=
  mkWorld (mkManager None (Some 0) None) [] [SSHConnect 0 (Some "jump") None None (Some 22) None] 1 [].

Lemma world_jump_only_handles_below : handles_below world_jump_only.
Proof.
  intros h [H | [H | H]]; cbn in H; try discriminate; injection H as <-; cbn; lia.
Qed.

Lemma transport_connect_fresh_jumphost_witness :
  let run := jumphost_transport_connect env_ok (Some "jump") (Some "u") (Some "p") (Some 22)
               (Some "target") (Some "u2") (Some "p2") (Some 22) world_jump_only in
  handles_below world_jump_only /\
  next_handle world_jump_only <> 0 /\
  exists cs, trace_extends world_jump_only (snd run) cs /\
    hd_error cs = Some (SSHLoadSystemHostKeys (next_handle world_jump_only)) /\
    ~ In (SSHClose 0) cs /\
    forall t j', fst run = Ok (t, j') ->
      j' = next_handle world_jump_only /\ _jumphost_client (self (snd run)) = Some j' /\
      In (SSHConnect j' (Some "jump") (Some "u") (Some "p") (Some 22) None) cs.
Proof.
  intros run. split; [exact world_jump_only_handles_below |].
  apply (transport_connect_fresh_jumphost env_ok world_jump_only 0 (Some "jump") (Some "u")
           (Some "p") (Some 22) (Some "target") (Some "u2") (Some "p2") (Some 22)
           (fst run) (snd run)).
  - exact world_jump_only_handles_below.
  - reflexivity.
  - reflexivity.
  - reflexivity.
  - vm_compute. reflexivity.
Defined.

(** * Idempotence of the connect operations *)

(** [w2] differs from [w1] at most by what was logged *)
Definition only_logged (w1 w2 : world) : Prop :=
  self w2 = self w1 /\ trace w2 = trace w1 /\ next_handle w2 = next_handle w1.

Lemma junos_open_connection_caches E w hostname username password port d w' :
  junos_open_connection E hostname username password port w = (Ok d, w') ->
  _junos_device (self w') = Some d.
Proof.
  unfold junos_open_connection. destruct (_junos_device (self w)) eqn:Hs;
    intros H; run; rewrite ?Hs in H; cbn in H; split_lib;
    repeat match goal with H : context [if ?b then _ else _] |- _ => destruct b; cbn in H end;
    inversion H; subst; cbn; auto.
Qed.

Lemma jumphost_connect_caches E w hostname username password port c w' :
  jumphost_connect E hostname username password port w = (Ok c, w') ->
  _jumphost_client (self w') = Some c.
Proof.
  unfold jumphost_connect. destruct (_jumphost_client (self w)) eqn:Hs;
    intros H; run; rewrite ?Hs in H; cbn in H; split_lib;
    repeat match goal with H : context [if ?b then _ else _] |- _ => destruct b; cbn in H end;
    inversion H; subst; cbn; auto.
Qed.

Lemma transport_connect_caches E w hostname username password port
    dst_host dst_username dst_password dst_port t j w' :
  jumphost_transport_connect E hostname username password port
    dst_host dst_username dst_password dst_port w = (Ok (t, j), w') ->
  _target_client (self w') = Some t /\ _jumphost_client (self w') = Some j.
Proof.
  unfold jumphost_transport_connect. destruct (truthy dst_host); cbn; [| discriminate].
  destruct (self w) as [jd jc tc] eqn:Hs; cbn. intros H.
  destruct tc, jc; run; rewrite ?Hs in H; cbn in H; split_lib; inversion H; subst; cbn;
    rewrite ?Hs; auto.
Qed.

(** C2 (amended): after a successful [junos_open_connection] or
    [jumphost_connect], a second call with any arguments returns the same
    handle and only logs; after a successful [jumphost_transport_connect],
    a second call returns the same pair and only logs provided its
    [dst_host] is non-empty (an empty one is refused first, see C5). *)
Theorem connect_twice_returns_cached E w :
  (forall hostname username password port hostname' username' password' port' d w1,
     junos_open_connection E hostname username password port w = (Ok d, w1) ->
     exists w2, junos_open_connection E hostname' username' password' port' w1 = (Ok d, w2)
                /\ only_logged w1 w2) /\
  (forall hostname username password port hostname' username' password' port' c w1,
     jumphost_connect E hostname username password port w = (Ok c, w1) ->
     exists w2, jumphost_connect E hostname' username' password' port' w1 = (Ok c, w2)
                /\ only_logged w1 w2) /\
  (forall hostname username password port dst_host dst_username dst_password dst_port
          hostname' username' password' port' dst_host' dst_username' dst_password' dst_port'
          t j w1,
     jumphost_transport_connect E hostname username password port
       dst_host dst_username dst_password dst_port w = (Ok (t, j), w1) ->
     truthy dst_host' = true ->
     exists w2, jumphost_transport_connect E hostname' username' password' port'
                  dst_host' dst_username' dst_password' dst_port' w1 = (Ok (t, j), w2)
                /\ only_logged w1 w2).
Proof.
  split; [| split].
  - intros * H. apply junos_open_connection_caches in H.
    unfold junos_open_connection; cbn. rewrite H.
    eexists; split; [reflexivity | repeat split].
  - intros * H. apply jumphost_connect_caches in H.
    unfold jumphost_connect; cbn. rewrite H.
    eexists; split; [reflexivity | repeat split].
  - intros * H Hd. apply transport_connect_caches in H as [Ht Hj].
    unfold jumphost_transport_connect. rewrite Hd; cbn. rewrite Ht, Hj.
    eexists; split; [reflexivity | repeat split].
Qed.

Lemma connect_twice_returns_cached_witness :
  exists w2, jumphost_transport_connect env_ok (Some "jump2") None None None
               (Some "other") None None None
               (snd (jumphost_transport_connect env_ok (Some "jump") (Some "u") (Some "p")
                       (Some 22) (Some "target") (Some "u2") (Some "p2") (Some 22) world0))
             = (Ok (2, 0), w2) /\
             only_logged (snd (jumphost_transport_connect env_ok (Some "jump") (Some "u")
                       (Some "p") (Some 22) (Some "target") (Some "u2") (Some "p2") (Some 22)
                       world0)) w2.
Proof.
  apply (proj2 (proj2 (connect_twice_returns_cached env_ok world0))
           (Some "jump") (Some "u") (Some "p") (Some 22) (Some "target") (Some "u2")
           (Some "p2") (Some 22)).
  - vm_compute. reflexivity.
  - reflexivity.
Defined.

(** C2 (counterexample): a second [jumphost_transport_connect] with no
    [dst_host] after a successful first one raises [ValueError] instead of
    returning the cached pair. *)
Lemma connect_twice_empty_dst_host_raises :
  fst (jumphost_transport_connect env_ok (Some "jump") (Some "u") (Some "p") (Some 22)
         (Some "target") (Some "u2") (Some "p2") (Some 22) world0) = Ok (2, 0) /\
  fst (jumphost_transport_connect env_ok (Some "jump") (Some "u") (Some "p") (Some 22)
         None (Some "u2") (Some "p2") (Some 22)
         (snd (jumphost_transport_connect env_ok (Some "jump") (Some "u") (Some "p") (Some 22)
                 (Some "target") (Some "u2") (Some "p2") (Some 22) world0)))
  = Err (ValueError "dst_host must be set for jumphost transport connection").
Proof. split; vm_compute; reflexivity. Qed.

(** * Closing sessions *)

(** What closing one cached session does: it returns normally, makes the
    one library call [c], and then either clears the slot (the call
    succeeded) or keeps the manager as it was and logs the error. *)
Definition close_outcome (E : Env) (c : call) (clear : manager -> manager)
    (err_prefix : string) (r : result unit) (w w' : world) : Prop :=
  r = Ok tt /\ trace w' = (trace w ++ [c])%list /\
  match lib E c with
  | None => self w' = clear (self w)
  | Some e => self w' = self w /\ In (ERROR, err_prefix ++ str_exc e) (logs w')
  end.

(** C3 (amended): with a cached session, [junos_close_connection] and
    [jumphost_disconnect] never raise; they close the session, and clear
    its slot when the close succeeds; when the close raises, the error is
    logged and swallowed and the slot keeps the session. *)
Theorem close_cached_session E w :
  (forall dev, _junos_device (self w) = Some dev ->
     close_outcome E (DeviceClose dev) (set_junos_device None)
       "Error closing Junos connection: "
       (fst (junos_close_connection E w)) w (snd (junos_close_connection E w))) /\
  (forall c, _jumphost_client (self w) = Some c ->
     close_outcome E (SSHClose c) (set_jumphost_client None)
       "Error closing jumphost connection: "
       (fst (jumphost_disconnect E w)) w (snd (jumphost_disconnect E w))).
Proof.
  split; [unfold junos_close_connection | unfold jumphost_disconnect];
    intros h Hs; unfold close_outcome; run; rewrite Hs; cbn;
    destruct (lib E _); cbn; repeat split;
    apply in_or_app; right; left; reflexivity.
Qed.

(** a manager holding a Junos device (object 0) *)
Definition world_device : world :=
  mkWorld (mkManager (Some 0) None None) [] [DeviceOpen 0] 1 [].

Lemma close_cached_session_witness :
  close_outcome env_ok (DeviceClose 0) (set_junos_device None)
    "Error closing Junos connection: "
    (fst (junos_close_connection env_ok world_device)) world_device
    (snd (junos_close_connection env_ok world_device)).
Proof.
  apply (proj1 (close_cached_session env_ok world_device) 0). reflexivity.
Defined.

(** an environment in which closing the device fails *)
Definition env_device_close_fails : Env :=
  mkEnv (fun c => match c with
                  | DeviceClose _ => Some (LibError "ConnectClosedError" "Connection closed")
                  | _ => None
                  end)
        (fun _ => None) (fun _ _ => None) (fun _ => "dev") "now".

(** C3 (counterexample): when [close()] raises, [junos_close_connection]
    returns normally but the slot still holds the device. *)
Lemma close_failure_keeps_slot :
  fst (junos_close_connection env_device_close_fails world_device) = Ok tt /\
  _junos_device (self (snd (junos_close_connection env_device_close_fails world_device)))
  = Some 0.
Proof. split; vm_compute; reflexivity. Qed.

(** C4 (the code at the failing input): on a manager with nothing cached,
    [junos_close_connection] and [jumphost_disconnect] log a warning, but
    [jumphost_transport_disconnect] returns without logging anything. *)
Lemma close_ops_on_empty_manager :
  junos_close_connection env_ok world0
  = (Ok tt, mkWorld init_manager [(WARNING, "No active Junos connection to close")] [] 0 []) /\
  jumphost_disconnect env_ok world0
  = (Ok tt, mkWorld init_manager [(WARNING, "No active jumphost connection to close")] [] 0 []) /\
  jumphost_transport_disconnect env_ok world0 = (Ok tt, world0).
Proof. split; [| split]; vm_compute; reflexivity. Qed.

(** a failing tunnel construction: the target's [connect] raises and so
    does its cleanup [close] *)
Lemma transport_connect_error_keeps_slots_witness :
  jumphost_transport_connect env_target_close_fails (Some "jump") (Some "u") (Some "p")
    (Some 22) (Some "target") (Some "u2") (Some "p2") (Some 22) world0
  = (Err (LibError "SSHException" "SSH session not active"),
     snd (jumphost_transport_connect env_target_close_fails (Some "jump") (Some "u")
            (Some "p") (Some 22) (Some "target") (Some "u2") (Some "p2") (Some 22) world0)) /\
  self (snd (jumphost_transport_connect env_target_close_fails (Some "jump") (Some "u")
               (Some "p") (Some 22) (Some "target") (Some "u2") (Some "p2") (Some 22) world0))
  = self world0.
Proof.
  split; [vm_compute; reflexivity |].
  apply (transport_connect_error_keeps_slots env_target_close_fails world0 (Some "jump")
           (Some "u") (Some "p") (Some 22) (Some "target") (Some "u2") (Some "p2") (Some 22)
           (LibError "SSHException" "SSH session not active")).
  vm_compute. reflexivity.
Defined.

(** * E-mail *)

Lemma missing_email_params_spec email_from email_to email_subject greeting email_body name :
  In name (missing_email_params email_from email_to email_subject greeting email_body) <->
  exists v, In (name, v) (required_email_params email_from email_to email_subject greeting
                            email_body) /\ truthy v = false.
Proof.
  unfold missing_email_params. rewrite in_map_iff. split.
  - intros ([n v] & <- & Hin). apply filter_In in Hin as [Hin Hv].
    exists v. split; [exact Hin |]. cbn in Hv. now destruct (truthy v).
  - intros (v & Hin & Hv). exists (name, v). split; [reflexivity |].
    apply filter_In. split; [exact Hin |]. cbn. now rewrite Hv.
Qed.

(** C6: when one or more of [email_from], [email_to], [email_subject],
    [greeting], [email_body] is empty or absent, [send_email] raises a
    [ValueError] whose message names every empty one of them (and only
    those), and nothing else happens: no message is built, no library
    call is made, nothing is sent. *)
Theorem send_email_names_all_missing E w email_from email_to email_subject email_body
    greeting cc_emails destination_path attach_list smtp_server smtp_port :
  truthy email_from = false \/ truthy email_to = false \/ truthy email_subject = false \/
  truthy greeting = false \/ truthy email_body = false ->
  exists msg,
    send_email E email_from email_to email_subject email_body greeting cc_emails
      destination_path attach_list smtp_server smtp_port w = (Err (ValueError msg), w) /\
    msg = "Missing required email parameters: " ++
          String.concat ", " (missing_email_params email_from email_to email_subject
                                greeting email_body) /\
    (forall name, In name (missing_email_params email_from email_to email_subject
                             greeting email_body) <->
       exists v, In (name, v) (required_email_params email_from email_to email_subject
                                 greeting email_body) /\ truthy v = false) /\
    (forall name v, In (name, v) (required_email_params email_from email_to email_subject
                                    greeting email_body) ->
       truthy v = false -> exists pre post, msg = pre ++ name ++ post).
Proof.
  intros H.
  assert (Hf : forallb truthy [email_from; email_to; email_subject; greeting; email_body]
               = false).
  { destruct H as [H | [H | [H | [H | H]]]]; cbn; rewrite H; cbn;
      rewrite ?andb_false_r; reflexivity. }
  eexists. split; [unfold send_email; rewrite Hf; reflexivity |].
  split; [reflexivity |].
  split; [apply missing_email_params_spec |].
  intros name v Hin Hv.
  destruct (concat_contains ", " name
              (missing_email_params email_from email_to email_subject greeting email_body))
    as (pre & post & Hc).
  { apply missing_email_params_spec. exists v. auto. }
  exists ("Missing required email parameters: " ++ pre)%string, post.
  rewrite Hc, string_append_assoc. reflexivity.
Qed.

Lemma send_email_names_all_missing_witness :
  (truthy None = false \/ truthy (Some "") = false \/ truthy (Some "s") = false \/
   truthy (Some "") = false \/ truthy (Some "b") = false) /\
  exists msg,
    send_email env_ok None (Some "") (Some "s") (Some "b") (Some "") None None None
      "localhost" 25 world0 = (Err (ValueError msg), world0) /\
    msg = "Missing required email parameters: " ++
          String.concat ", " (missing_email_params None (Some "") (Some "s") (Some "") (Some "b")) /\
    (forall name, In name (missing_email_params None (Some "") (Some "s") (Some "") (Some "b")) <->
       exists v, In (name, v) (required_email_params None (Some "") (Some "s") (Some "")
                                 (Some "b")) /\ truthy v = false) /\
    (forall name v, In (name, v) (required_email_params None (Some "") (Some "s") (Some "")
                                    (Some "b")) ->
       truthy v = false -> exists pre post, msg = pre ++ name ++ post).
Proof.
  split; [left; reflexivity |].
  apply send_email_names_all_missing. left. reflexivity.
Defined.

(** the message of the witness run names the three empty fields *)
Example send_email_missing_message :
  fst (send_email env_ok None (Some "") (Some "s") (Some "b") (Some "") None None None
         "localhost" 25 world0)
  = Err (ValueError "Missing required email parameters: email_from, email_to, greeting").
Proof. vm_compute. reflexivity. Qed.

(** the attachments [send_email] adds for [attachments] in [attach_path]:
    one per name whose path can be opened and read *)
Definition found_attachments (E : Env) (attach_path : string) (attachments : list string)
    : list mime_part :=
  flat_map (fun filename =>
              match open_read E (os_path_join attach_path filename) with
              | inr data => [MIMEApplication_txt filename data]
              | inl _ => []
              end) attachments.

(** what the attachment loop logs *)
Definition attach_logs (E : Env) (attach_path : string) (attachments : list string)
    : list (level * string) :=
  flat_map (fun filename =>
              let file_path := os_path_join attach_path filename in
              match fs E file_path with
              | None => [(WARNING, "Attachment not found: " ++ file_path)]
              | Some _ =>
                  match open_read E file_path with
                  | inr _ => [(DEBUG, "Attached: " ++ filename)]
                  | inl _ => []
                  end
              end) attachments.

(** every attachment name that resolves to an existing path can be
    opened and read *)
Definition attachments_readable (E : Env) (attach_path : string)
    (attachments : list string) : Prop :=
  forall filename, In filename attachments ->
    fs E (os_path_join attach_path filename) <> None ->
    exists data, open_read E (os_path_join attach_path filename) = inr data.

Lemma attach_files_ok E attach_path attachments :
  attachments_readable E attach_path attachments ->
  forall msg w,
    attach_files E attach_path attachments msg w
    = (Ok (mkMessage (headers msg) (parts msg ++ found_attachments E attach_path attachments)),
       mkWorld (self w) (logs w ++ attach_logs E attach_path attachments) (trace w)
               (next_handle w) (frame w)).
Proof.
  induction attachments as [| filename rest IH]; intros Hread msg w.
  - cbn. rewrite !app_nil_r. destruct msg, w; reflexivity.
  - assert (Hrest : attachments_readable E attach_path rest)
      by (intros f Hf; apply Hread; right; exact Hf).
    cbn [attach_files found_attachments attach_logs flat_map]. unfold os_path_exists.
    destruct (fs E (os_path_join attach_path filename)) as [entry |] eqn:Hfs; cbn [negb].
    + destruct (Hread filename) as [data Hd]; [left; reflexivity | rewrite Hfs; discriminate |].
      rewrite Hd. unfold bind, log. rewrite IH by exact Hrest.
      cbn. rewrite <- !app_assoc. reflexivity.
    + assert (Hn : exists e, open_read E (os_path_join attach_path filename) = inl e)
        by (unfold open_read; rewrite Hfs; eexists; reflexivity).
      destruct Hn as [e He]. rewrite He.
      unfold bind, log. rewrite IH by exact Hrest.
      cbn. rewrite <- !app_assoc. reflexivity.
Qed.


Lemma attach_logs_warns E attach_path attachments filename :
  In filename attachments -> fs E (os_path_join attach_path filename) = None ->
  In (WARNING, "Attachment not found: " ++ os_path_join attach_path filename)
     (attach_logs E attach_path attachments).
Proof.
  intros Hin Hfs. unfold attach_logs. apply in_flat_map.
  exists filename. split; [exact Hin |]. rewrite Hfs. left. reflexivity.
Qed.

#[local] Arguments attach_logs : simpl never.
#[local] Arguments found_attachments : simpl never.

(** find a warning of the attachment loop in a log built by appends *)
Ltac find_in_logs :=
  first [ apply attach_logs_warns; assumption
        | apply in_or_app; left; find_in_logs
        | apply in_or_app; right; find_in_logs ].

(** prove [a = b \/ ... ] by the first disjunct that holds *)
Ltac find_in_disj := first [ reflexivity | left; find_in_disj | right; find_in_disj ].

(** C7 (amended): with the five required fields non-empty, a non-empty
    [destination_path], every attachment name that resolves to an
    existing path readable (not a directory, not a file without read
    permission), a mail relay that accepts the connection, the message and
    the closing [QUIT], and a standard output that accepts the final
    [print], [send_email] returns [True]; the message it sends carries,
    after the HTML body, exactly the files found (in the order of
    [attach_list]), and each name whose resolved path does not exist is
    skipped with a warning. *)
Theorem send_email_skips_missing_attachments E w email_from email_to email_subject
    email_body greeting cc_emails attach_dir attachments smtp_server smtp_port r w' :
  truthy email_from = true -> truthy email_to = true -> truthy email_subject = true ->
  truthy greeting = true -> truthy email_body = true ->
  truthy (Some attach_dir) = true ->
  attachments_readable E attach_dir attachments ->
  lib E (SMTPConnect smtp_server smtp_port) = None ->
  (forall m, lib E (SMTPSendMessage m) = None) ->
  lib E (SMTPQuit smtp_server smtp_port) = None ->
  (forall text, lib E (PrintStdout text) = None) ->
  send_email E email_from email_to email_subject email_body greeting cc_emails
    (Some attach_dir) (Some attachments) smtp_server smtp_port w = (r, w') ->
  r = Ok true /\
  exists msg, In (SMTPSendMessage msg) (trace w') /\
    tl (parts msg) = found_attachments E attach_dir attachments /\
    (forall filename, In filename attachments ->
       fs E (os_path_join attach_dir filename) = None ->
       In (WARNING, "Attachment not found: " ++ os_path_join attach_dir filename) (logs w')).
Proof.
  intros H1 H2 H3 H4 H5 Hd Hread Hc Hs Hq Hp Hrun.
  unfold send_email in Hrun. cbn [forallb] in Hrun.
  rewrite H1, H2, H3, H4, H5 in Hrun. cbn [andb negb] in Hrun.
  unfold try_except, bind, log, lib_call in Hrun. cbn -[attach_files] in Hrun.
  destruct attachments as [| filename rest].
  - cbn in Hrun. rewrite Hc, Hs in Hrun. cbn in Hrun. rewrite Hq in Hrun. cbn in Hrun.
    rewrite Hp in Hrun. cbn in Hrun. inversion Hrun; subst; clear Hrun.
    split; [reflexivity |].
    eexists. split; [cbn; repeat rewrite in_app_iff; cbn; find_in_disj |].
    split; [reflexivity |]. intros f [].
  - cbn in Hd. rewrite Hd in Hrun. cbn -[attach_files] in Hrun.
    rewrite attach_files_ok in Hrun by exact Hread. cbn in Hrun.
    rewrite Hc, Hs in Hrun. cbn in Hrun. rewrite Hq in Hrun. cbn in Hrun.
    rewrite Hp in Hrun. cbn in Hrun. inversion Hrun; subst; clear Hrun.
    split; [reflexivity |].
    eexists. split; [cbn; repeat rewrite in_app_iff; cbn; find_in_disj |].
    split; [reflexivity |].
    intros f Hin Hfs. cbn [logs].
    find_in_logs.
Qed.

(** a mail setup: [/tmp/att] holds the readable file [report.txt], the
    directory [sub] and the file [locked.txt] without read permission;
    the relay and standard output accept everything *)
Definition env_mail : Env :=
  mkEnv (fun _ => None)
        (fun p => if String.eqb p "/tmp/att/report.txt" then Some (RegularFile [Byte.x41])
                  else if String.eqb p "/tmp/att/sub" then Some Directory
                  else if String.eqb p "/tmp/att/locked.txt" then
                    Some (OtherEntry true
                            (inl (PermissionError
                                    "[Errno 13] Permission denied: '/tmp/att/locked.txt'")))
                  else None)
        (fun _ _ => None) (fun _ => "dev") "now".

Lemma send_email_skips_missing_attachments_witness :
  let run := send_email env_mail (Some "a@x") (Some "b@x") (Some "s") (Some "body")
               (Some "Hi") None (Some "/tmp/att") (Some ["missing.txt"; "report.txt"])
               "localhost" 25 world0 in
  attachments_readable env_mail "/tmp/att" ["missing.txt"; "report.txt"] /\
  fst run = Ok true /\
  exists msg, In (SMTPSendMessage msg) (trace (snd run)) /\
    tl (parts msg) = found_attachments env_mail "/tmp/att" ["missing.txt"; "report.txt"] /\
    (forall filename, In filename ["missing.txt"; "report.txt"] ->
       fs env_mail (os_path_join "/tmp/att" filename) = None ->
       In (WARNING, "Attachment not found: " ++ os_path_join "/tmp/att" filename)
          (logs (snd run))).
Proof.
  intros run.
  assert (Hread : attachments_readable env_mail "/tmp/att" ["missing.txt"; "report.txt"]).
  { intros f [<- | [<- | []]] Hne.
    - exfalso. apply Hne. vm_compute. reflexivity.
    - exists [Byte.x41]. vm_compute. reflexivity. }
  split; [exact Hread |].
  apply (send_email_skips_missing_attachments env_mail world0 (Some "a@x") (Some "b@x")
           (Some "s") (Some "body") (Some "Hi") None "/tmp/att" ["missing.txt"; "report.txt"]
           "localhost" 25 (fst run) (snd run));
    try reflexivity; try exact Hread.
Defined.

(** the witness run attaches [report.txt] only *)
Example send_email_attaches_found_file :
  found_attachments env_mail "/tmp/att" ["missing.txt"; "report.txt"]
  = [MIMEApplication_txt "report.txt" [Byte.x41]].
Proof. vm_compute. reflexivity. Qed.

(** C7 (counterexample): an attachment name whose path exists but cannot
    be read makes [open(file_path, 'rb')] raise, be it a directory or a
    file without read permission; [send_email] fails and no message is
    sent, although the other name merely does not exist. *)
Lemma send_email_directory_attachment_fails :
  fst (send_email env_mail (Some "a@x") (Some "b@x") (Some "s") (Some "body") (Some "Hi")
         None (Some "/tmp/att") (Some ["missing.txt"; "sub"]) "localhost" 25 world0)
  = Err (IsADirectoryError "[Errno 21] Is a directory: '/tmp/att/sub'") /\
  trace (snd (send_email env_mail (Some "a@x") (Some "b@x") (Some "s") (Some "body")
                (Some "Hi") None (Some "/tmp/att") (Some ["missing.txt"; "sub"])
                "localhost" 25 world0)) = [] /\
  fst (send_email env_mail (Some "a@x") (Some "b@x") (Some "s") (Some "body") (Some "Hi")
         None (Some "/tmp/att") (Some ["missing.txt"; "locked.txt"]) "localhost" 25 world0)
  = Err (PermissionError "[Errno 13] Permission denied: '/tmp/att/locked.txt'") /\
  trace (snd (send_email env_mail (Some "a@x") (Some "b@x") (Some "s") (Some "body")
                (Some "Hi") None (Some "/tmp/att") (Some ["missing.txt"; "locked.txt"])
                "localhost" 25 world0)) = [].
Proof. repeat split; vm_compute; reflexivity. Qed.

(** * File transfer *)

(** C8: [copy_file_local_to_remote] returns [False] without raising, and
    without any library call or change to the manager, when [src_path] or
    [dst_path] is empty or absent; when both are given but the local
    source does not exist it raises [FileNotFoundError] before anything
    else happens (no jump-host session, no library call). *)
Theorem copy_local_to_remote_validation E w src_path dst_path use_jumphost :
  (truthy src_path = false \/ truthy dst_path = false ->
   fst (copy_file_local_to_remote E src_path dst_path use_jumphost w) = Ok false /\
   only_logged w (snd (copy_file_local_to_remote E src_path dst_path use_jumphost w))) /\
  (truthy src_path = true -> truthy dst_path = true ->
   os_path_exists E (str_opt src_path) = false ->
   copy_file_local_to_remote E src_path dst_path use_jumphost w
   = (Err (FileNotFoundError ("Source file not found: " ++ str_opt src_path)), w)).
Proof.
  unfold copy_file_local_to_remote. split.
  - intros [H | H]; rewrite H; cbn; [| rewrite orb_true_r]; cbn;
      (split; [reflexivity | repeat split]).
  - intros H1 H2 H3. rewrite H1, H2, H3. reflexivity.
Qed.

Lemma copy_local_to_remote_validation_witness :
  (truthy (Some "") = false \/ truthy (Some "/tmp/dst") = false ->
   fst (copy_file_local_to_remote env_ok (Some "") (Some "/tmp/dst") true world0) = Ok false /\
   only_logged world0 (snd (copy_file_local_to_remote env_ok (Some "") (Some "/tmp/dst") true
                              world0))) /\
  (truthy (Some "/tmp/src") = true /\ truthy (Some "/tmp/dst") = true /\
   os_path_exists env_ok (str_opt (Some "/tmp/src")) = false) /\
  copy_file_local_to_remote env_ok (Some "/tmp/src") (Some "/tmp/dst") true world0
  = (Err (FileNotFoundError ("Source file not found: " ++ str_opt (Some "/tmp/src"))), world0).
Proof.
  split; [apply (proj1 (copy_local_to_remote_validation env_ok world0 (Some "")
                          (Some "/tmp/dst") true)) |].
  split; [repeat split |].
  apply (proj2 (copy_local_to_remote_validation env_ok world0 (Some "/tmp/src")
                  (Some "/tmp/dst") true)); reflexivity.
Defined.

(** * Further properties of the manager *)

(** [run] extended to the methods the claims do not use *)
Ltac run_more :=
  repeat progress (unfold close_all_connections, connect_junos_shell,
                   check_directory_exists, check_file_exists, create_directory,
                   copy_file_remote_to_local, os_path_isdir, os_path_isfile in *;
                   run).

(** [close_all_connections] (the body of [__exit__]) never raises; it
    calls [close()] on every session cached when it starts, whatever the
    earlier closes did; and when every close succeeds the manager ends
    with no session cached. *)
Theorem close_all_connections_closes_all E w :
  fst (close_all_connections E w) = Ok tt /\
  (exists cs, trace_extends w (snd (close_all_connections E w)) cs /\
     (forall d, _junos_device (self w) = Some d -> In (DeviceClose d) cs) /\
     (forall t, _target_client (self w) = Some t -> In (SSHClose t) cs) /\
     (forall j, _jumphost_client (self w) = Some j -> In (SSHClose j) cs)) /\
  ((forall d, lib E (DeviceClose d) = None) -> (forall h, lib E (SSHClose h) = None) ->
   self (snd (close_all_connections E w)) = init_manager).
Proof.
  destruct w as [[jd jc tc] lg tr nh fr].
  destruct jd, jc, tc; run_more; split_lib;
    (split; [reflexivity |]);
    (split;
     [ unfold trace_extends; cbn [trace]; rewrite <- ?app_assoc; eexists;
       split; [first [reflexivity | symmetry; apply app_nil_r] |];
       repeat split; intros x Hx; try discriminate; injection Hx as <-; cbn; tauto
     | intros Hdc Hsc; rewrite ?Hdc, ?Hsc in *; try discriminate; reflexivity ]).
Qed.

(** [jumphost_transport_disconnect] with both tunnel sessions cached
    never raises; it closes the target first and then the jump host, the
    second close being attempted even when the first fails; each slot is
    cleared exactly when its own close succeeds, and the Junos slot is
    left alone. *)
Theorem transport_disconnect_closes_in_order E w t j :
  _target_client (self w) = Some t -> _jumphost_client (self w) = Some j ->
  fst (jumphost_transport_disconnect E w) = Ok tt /\
  trace (snd (jumphost_transport_disconnect E w)) = (trace w ++ [SSHClose t; SSHClose j])%list /\
  _target_client (self (snd (jumphost_transport_disconnect E w)))
    = match lib E (SSHClose t) with None => None | Some _ => Some t end /\
  _jumphost_client (self (snd (jumphost_transport_disconnect E w)))
    = match lib E (SSHClose j) with None => None | Some _ => Some j end /\
  _junos_device (self (snd (jumphost_transport_disconnect E w))) = _junos_device (self w).
Proof.
  intros Ht Hj. unfold jumphost_transport_disconnect. run. rewrite Ht. cbn.
  destruct (lib E (SSHClose t)); cbn; rewrite Hj; cbn;
    destruct (lib E (SSHClose j)); cbn; rewrite <- ?app_assoc; rewrite ?Ht, ?Hj;
    repeat split.
Qed.

(** a manager holding a tunnel: jump host 0, channel 1, target 2 *)
Definition world_tunnel : world :=
  mkWorld (mkManager None (Some 0) (Some 2)) [] [] 3 [].

Lemma transport_disconnect_closes_in_order_witness :
  fst (jumphost_transport_disconnect env_target_close_fails world_tunnel) = Ok tt /\
  trace (snd (jumphost_transport_disconnect env_target_close_fails world_tunnel))
    = (trace world_tunnel ++ [SSHClose 2; SSHClose 0])%list /\
  _target_client (self (snd (jumphost_transport_disconnect env_target_close_fails world_tunnel)))
    = match lib env_target_close_fails (SSHClose 2) with None => None | Some _ => Some 2 end /\
  _jumphost_client (self (snd (jumphost_transport_disconnect env_target_close_fails
                                world_tunnel)))
    = match lib env_target_close_fails (SSHClose 0) with None => None | Some _ => Some 0 end /\
  _junos_device (self (snd (jumphost_transport_disconnect env_target_close_fails world_tunnel)))
    = _junos_device (self world_tunnel).
Proof.
  apply transport_disconnect_closes_in_order; reflexivity.
Defined.

(** find a library call in a trace built by appends *)
Ltac find_call := repeat rewrite in_app_iff; cbn; auto 10.

(** When [junos_open_connection] or [jumphost_connect] raises, the
    exception is the one a library call made during the attempt raised
    (it is re-raised unchanged), and the manager is as it was. *)
Theorem open_connection_error_reraised E w :
  (forall hostname username password port e w',
     junos_open_connection E hostname username password port w = (Err e, w') ->
     self w' = self w /\
     exists c cs, trace_extends w w' cs /\ In c cs /\ lib E c = Some e) /\
  (forall hostname username password port e w',
     jumphost_connect E hostname username password port w = (Err e, w') ->
     self w' = self w /\
     exists c cs, trace_extends w w' cs /\ In c cs /\ lib E c = Some e).
Proof.
  destruct w as [[jd jc tc] lg tr nh fr].
  split; intros * H; [destruct jd | destruct jc]; run; split_lib;
    repeat match goal with H : context [if ?b then _ else _] |- _ => destruct b; cbn in H end;
    inversion H; subst; clear H; (split; [reflexivity |]);
    match goal with Hl : lib E ?c = Some _ |- _ => exists c end;
    unfold trace_extends; cbn; rewrite <- ?app_assoc; eexists;
    (split; [reflexivity |]); (split; [find_call | assumption]).
Qed.

(** an environment where the device refuses the login *)
Definition env_device_auth_fails : Env :=
  mkEnv (fun c => match c with
                  | DeviceOpen _ => Some (LibError "ConnectAuthError" "bad credentials")
                  | _ => None
                  end)
        (fun _ => None) (fun _ _ => None) (fun _ => "dev") "now".

Lemma open_connection_error_reraised_witness :
  junos_open_connection env_device_auth_fails (Some "h") (Some "u") (Some "p") (Some 22) world0
  = (Err (LibError "ConnectAuthError" "bad credentials"),
     snd (junos_open_connection env_device_auth_fails (Some "h") (Some "u") (Some "p")
            (Some 22) world0)) /\
  self (snd (junos_open_connection env_device_auth_fails (Some "h") (Some "u") (Some "p")
               (Some 22) world0)) = self world0 /\
  exists c cs, trace_extends world0 (snd (junos_open_connection env_device_auth_fails
                 (Some "h") (Some "u") (Some "p") (Some 22) world0)) cs /\
    In c cs /\ lib env_device_auth_fails c = Some (LibError "ConnectAuthError" "bad credentials").
Proof.
  split; [vm_compute; reflexivity |].
  apply (proj1 (open_connection_error_reraised env_device_auth_fails world0)
           (Some "h") (Some "u") (Some "p") (Some 22)).
  vm_compute. reflexivity.
Defined.

(** A successful [jumphost_transport_connect] that was not served from
    the cache builds the tunnel as the code writes it: a new jump-host
    client connected with the first four arguments, a [direct-tcpip]
    channel on its transport from [(hostname, port)] to
    [(dst_host, dst_port)], and a new target client connected through
    that channel; both new clients are then cached, the Junos slot is
    left alone. *)
Theorem transport_connect_builds_tunnel E w hostname username password port
    dst_host dst_username dst_password dst_port t j w' :
  _target_client (self w) = None \/ _jumphost_client (self w) = None ->
  jumphost_transport_connect E hostname username password port
    dst_host dst_username dst_password dst_port w = (Ok (t, j), w') ->
  j = next_handle w /\ t = S (S (next_handle w)) /\
  trace w' = (trace w ++
    [SSHLoadSystemHostKeys j; SSHSetMissingHostKeyPolicy j;
     SSHConnect j hostname username password port None;
     TransportOpenChannel j "direct-tcpip" (dst_host, dst_port) (hostname, port);
     SSHSetMissingHostKeyPolicy t;
     SSHConnect t dst_host dst_username dst_password dst_port (Some (S (next_handle w)))])%list /\
  self w' = mkManager (_junos_device (self w)) (Some j) (Some t).
Proof.
  destruct w as [[jd jc tc] lg tr nh fr]; cbn. intros Hc H.
  unfold jumphost_transport_connect in H.
  destruct (truthy dst_host); cbn in H; [| discriminate].
  destruct tc, jc; [destruct Hc; discriminate | | |]; run; split_lib;
    inversion H; subst; rewrite <- ?app_assoc; repeat split.
Qed.

Lemma transport_connect_builds_tunnel_witness :
  ((_target_client (self world0) = None \/ _jumphost_client (self world0) = None) /\
   jumphost_transport_connect env_ok (Some "jump") (Some "u") (Some "p") (Some 22)
     (Some "target") (Some "u2") (Some "p2") (Some 22) world0
   = (Ok (2, 0), snd (jumphost_transport_connect env_ok (Some "jump") (Some "u") (Some "p")
                        (Some 22) (Some "target") (Some "u2") (Some "p2") (Some 22) world0))) /\
  0 = next_handle world0 /\ 2 = S (S (next_handle world0)) /\
  trace (snd (jumphost_transport_connect env_ok (Some "jump") (Some "u") (Some "p")
                (Some 22) (Some "target") (Some "u2") (Some "p2") (Some 22) world0))
  = (trace world0 ++
     [SSHLoadSystemHostKeys 0; SSHSetMissingHostKeyPolicy 0;
      SSHConnect 0 (Some "jump") (Some "u") (Some "p") (Some 22) None;
      TransportOpenChannel 0 "direct-tcpip" (Some "target", Some 22) (Some "jump", Some 22);
      SSHSetMissingHostKeyPolicy 2;
      SSHConnect 2 (Some "target") (Some "u2") (Some "p2") (Some 22)
        (Some (S (next_handle world0)))])%list /\
  self (snd (jumphost_transport_connect env_ok (Some "jump") (Some "u") (Some "p")
               (Some 22) (Some "target") (Some "u2") (Some "p2") (Some 22) world0))
  = mkManager (_junos_device (self world0)) (Some 0) (Some 2).
Proof.
  split; [split; [left; reflexivity | vm_compute; reflexivity] |].
  apply (transport_connect_builds_tunnel env_ok world0 (Some "jump") (Some "u") (Some "p")
           (Some 22) (Some "target") (Some "u2") (Some "p2") (Some 22));
    [left; reflexivity |].
  vm_compute. reflexivity.
Defined.

(** When tunnel construction fails and no cleanup [close()] raises, the
    original exception (raised by one of the construction calls)
    propagates, the new jump-host client is closed, and the new target
    client is closed whenever it was constructed (its first call was
    made). *)
Theorem transport_connect_failure_cleanup E w hostname username password port
    dst_host dst_username dst_password dst_port e w' :
  (forall h, lib E (SSHClose h) = None) ->
  truthy dst_host = true ->
  _target_client (self w) = None \/ _jumphost_client (self w) = None ->
  jumphost_transport_connect E hostname username password port
    dst_host dst_username dst_password dst_port w = (Err e, w') ->
  exists cs, trace_extends w w' cs /\
    (exists c, In c cs /\ lib E c = Some e) /\
    In (SSHClose (next_handle w)) cs /\
    (In (SSHSetMissingHostKeyPolicy (S (S (next_handle w)))) cs ->
     In (SSHClose (S (S (next_handle w)))) cs).
Proof.
  destruct w as [[jd jc tc] lg tr nh fr]; cbn. intros Hcl Hd Hc H.
  unfold jumphost_transport_connect in H. rewrite Hd in H. cbn in H.
  destruct tc, jc; [destruct Hc; discriminate | | |]; run; split_lib;
    try match goal with Hx : lib E (SSHClose _) = Some _ |- _ =>
          rewrite Hcl in Hx; discriminate end;
    inversion H; subst; clear H;
    unfold trace_extends; cbn; rewrite <- ?app_assoc; eexists;
    (split; [reflexivity |]);
    (split; [match goal with Hl : lib E ?c = Some _ |- _ => exists c end;
             split; [find_call | assumption] |]);
    (split; [find_call |]);
    intros Hin; first [solve [find_call] |
      exfalso; repeat rewrite in_app_iff in Hin; cbn in Hin;
      repeat (destruct Hin as [Hin | Hin]); try discriminate; try contradiction;
      injection Hin; lia].
Qed.

(** the target's connect fails; closing succeeds *)
Definition env_target_auth_fails : Env :=
  mkEnv (fun c => match c with
                  | SSHConnect 2 _ _ _ _ _ =>
                      Some (LibError "AuthenticationException" "Authentication failed.")
                  | _ => None
                  end)
        (fun _ => None) (fun _ _ => None) (fun _ => "dev") "now".

Lemma transport_connect_failure_cleanup_witness :
  let run := jumphost_transport_connect env_target_auth_fails (Some "jump") (Some "u")
               (Some "p") (Some 22) (Some "target") (Some "u2") (Some "p2") (Some 22) world0 in
  run = (Err (LibError "AuthenticationException" "Authentication failed."), snd run) /\
  exists cs, trace_extends world0 (snd run) cs /\
    (exists c, In c cs /\ lib env_target_auth_fails c
                          = Some (LibError "AuthenticationException" "Authentication failed.")) /\
    In (SSHClose (next_handle world0)) cs /\
    (In (SSHSetMissingHostKeyPolicy (S (S (next_handle world0)))) cs ->
     In (SSHClose (S (S (next_handle world0)))) cs).
Proof.
  intros run. split; [vm_compute; reflexivity |].
  apply (transport_connect_failure_cleanup env_target_auth_fails world0 (Some "jump")
           (Some "u") (Some "p") (Some 22) (Some "target") (Some "u2") (Some "p2") (Some 22)).
  - intros h. reflexivity.
  - reflexivity.
  - left. reflexivity.
  - vm_compute. reflexivity.
Defined.

(** * File transfer with a jump host *)

(** With a jump-host client [c] cached and both paths non-empty (the
    local source existing, for an upload), each copy reuses [c]: the only
    library call is the SCP transfer on [c], the manager is unchanged, and
    the result is [True] or the transfer's exception, re-raised. *)
Theorem copy_with_cached_jumphost E w c src_path dst_path :
  _jumphost_client (self w) = Some c -> truthy src_path = true -> truthy dst_path = true ->
  (trace (snd (copy_file_remote_to_local E src_path dst_path true w))
     = (trace w ++ [SCPGet c (str_opt src_path) (str_opt dst_path)])%list /\
   self (snd (copy_file_remote_to_local E src_path dst_path true w)) = self w /\
   fst (copy_file_remote_to_local E src_path dst_path true w)
     = match lib E (SCPGet c (str_opt src_path) (str_opt dst_path)) with
       | None => Ok true | Some e => Err e end) /\
  (os_path_exists E (str_opt src_path) = true ->
   trace (snd (copy_file_local_to_remote E src_path dst_path true w))
     = (trace w ++ [SCPPut c (str_opt src_path) (str_opt dst_path)])%list /\
   self (snd (copy_file_local_to_remote E src_path dst_path true w)) = self w /\
   fst (copy_file_local_to_remote E src_path dst_path true w)
     = match lib E (SCPPut c (str_opt src_path) (str_opt dst_path)) with
       | None => Ok true | Some e => Err e end).
Proof.
  intros Hj Hs Hd. split; [| intros Hx];
    [unfold copy_file_remote_to_local | unfold copy_file_local_to_remote];
    rewrite Hs, Hd; cbn; [| unfold os_path_exists in Hx; unfold os_path_exists; rewrite Hx; cbn];
    unfold try_except, bind, log, jumphost_connect, get_self, ret, lib_call; cbn;
    rewrite Hj; cbn;
    destruct (lib E _); cbn; repeat split.
Qed.

Lemma copy_with_cached_jumphost_witness :
  (trace (snd (copy_file_remote_to_local env_ok (Some "/r") (Some "/l") true world_jump_only))
     = (trace world_jump_only ++ [SCPGet 0 (str_opt (Some "/r")) (str_opt (Some "/l"))])%list /\
   self (snd (copy_file_remote_to_local env_ok (Some "/r") (Some "/l") true world_jump_only))
     = self world_jump_only /\
   fst (copy_file_remote_to_local env_ok (Some "/r") (Some "/l") true world_jump_only)
     = match lib env_ok (SCPGet 0 (str_opt (Some "/r")) (str_opt (Some "/l"))) with
       | None => Ok true | Some e => Err e end) /\
  (os_path_exists env_ok (str_opt (Some "/r")) = true ->
   trace (snd (copy_file_local_to_remote env_ok (Some "/r") (Some "/l") true world_jump_only))
     = (trace world_jump_only ++ [SCPPut 0 (str_opt (Some "/r")) (str_opt (Some "/l"))])%list /\
   self (snd (copy_file_local_to_remote env_ok (Some "/r") (Some "/l") true world_jump_only))
     = self world_jump_only /\
   fst (copy_file_local_to_remote env_ok (Some "/r") (Some "/l") true world_jump_only)
     = match lib env_ok (SCPPut 0 (str_opt (Some "/r")) (str_opt (Some "/l"))) with
       | None => Ok true | Some e => Err e end).
Proof.
  apply copy_with_cached_jumphost; reflexivity.
Defined.

(** With [use_jumphost=False] (and the paths valid), neither copy makes a
    library call or changes the manager; both return [False]. *)
Theorem copy_without_jumphost_returns_false E w src_path dst_path :
  truthy src_path = true -> truthy dst_path = true ->
  (fst (copy_file_remote_to_local E src_path dst_path false w) = Ok false /\
   only_logged w (snd (copy_file_remote_to_local E src_path dst_path false w))) /\
  (os_path_exists E (str_opt src_path) = true ->
   fst (copy_file_local_to_remote E src_path dst_path false w) = Ok false /\
   only_logged w (snd (copy_file_local_to_remote E src_path dst_path false w))).
Proof.
  intros Hs Hd. split; [| intros Hx];
    [unfold copy_file_remote_to_local | unfold copy_file_local_to_remote];
    rewrite Hs, Hd; cbn; [| rewrite Hx; cbn]; repeat split.
Qed.

Lemma copy_without_jumphost_returns_false_witness :
  (fst (copy_file_remote_to_local env_ok (Some "/r") (Some "/l") false world0) = Ok false /\
   only_logged world0 (snd (copy_file_remote_to_local env_ok (Some "/r") (Some "/l") false
                              world0))) /\
  (os_path_exists env_ok (str_opt (Some "/r")) = true ->
   fst (copy_file_local_to_remote env_ok (Some "/r") (Some "/l") false world0) = Ok false /\
   only_logged world0 (snd (copy_file_local_to_remote env_ok (Some "/r") (Some "/l") false
                              world0))).
Proof.
  apply copy_without_jumphost_returns_false; reflexivity.
Defined.

(** With no jump host cached, a successful upload first opens one through
    [jumphost_connect()] called without arguments: no hostname, user or
    password, port 22; the new client is cached and carries the SCP put. *)
Theorem copy_local_to_remote_opens_default_jumphost E w src_path dst_path w' :
  _jumphost_client (self w) = None -> truthy src_path = true -> truthy dst_path = true ->
  copy_file_local_to_remote E src_path dst_path true w = (Ok true, w') ->
  trace w' = (trace w ++
    [SSHLoadSystemHostKeys (next_handle w); SSHSetMissingHostKeyPolicy (next_handle w);
     SSHConnect (next_handle w) None None None (Some 22) None;
     SCPPut (next_handle w) (str_opt src_path) (str_opt dst_path)])%list /\
  self w' = set_jumphost_client (Some (next_handle w)) (self w).
Proof.
  intros Hj Hs Hd H. unfold copy_file_local_to_remote in H. rewrite Hs, Hd in H. cbn in H.
  destruct (os_path_exists E (str_opt src_path)); cbn in H; [| discriminate].
  unfold jumphost_connect in H. run. rewrite Hj in H. cbn in H. split_lib;
    repeat match goal with H : context [if ?b then _ else _] |- _ => destruct b; cbn in H end;
    inversion H; subst; cbn; rewrite <- ?app_assoc; split; reflexivity.
Qed.

Lemma copy_local_to_remote_opens_default_jumphost_witness :
  let env := mkEnv (fun _ => None) (fun p => if String.eqb p "/l" then Some (RegularFile [])
                                             else None)
                   (fun _ _ => None) (fun _ => "dev") "now" in
  let run := copy_file_local_to_remote env (Some "/l") (Some "/r") true world0 in
  run = (Ok true, snd run) /\
  trace (snd run) = (trace world0 ++
    [SSHLoadSystemHostKeys (next_handle world0); SSHSetMissingHostKeyPolicy (next_handle world0);
     SSHConnect (next_handle world0) None None None (Some 22) None;
     SCPPut (next_handle world0) (str_opt (Some "/l")) (str_opt (Some "/r"))])%list /\
  self (snd run) = set_jumphost_client (Some (next_handle world0)) (self world0).
Proof.
  intros env run. split; [vm_compute; reflexivity |].
  apply (copy_local_to_remote_opens_default_jumphost env world0 (Some "/l") (Some "/r"));
    [reflexivity | reflexivity | reflexivity | vm_compute; reflexivity].
Defined.

(** * Shell sessions: [connect_junos_shell] *)

(** With a device [d] already cached, [connect_junos_shell] reuses it: the
    only library call is [StartShell(d)], the manager is unchanged, and the
    result is the new shell object or the constructor's exception. *)
Theorem junos_shell_reuses_cached_device E w d :
  _junos_device (self w) = Some d ->
  trace (snd (connect_junos_shell E w)) = (trace w ++ [StartShellInit d])%list /\
  self (snd (connect_junos_shell E w)) = self w /\
  fst (connect_junos_shell E w)
    = match lib E (StartShellInit d) with
      | None => Ok (next_handle w) | Some e => Err e end.
Proof.
  intros Hd. unfold connect_junos_shell. run. rewrite Hd. cbn.
  destruct (lib E (StartShellInit d)); cbn; repeat split.
Qed.

Lemma junos_shell_reuses_cached_device_witness :
  trace (snd (connect_junos_shell env_ok world_device))
    = (trace world_device ++ [StartShellInit 0])%list /\
  self (snd (connect_junos_shell env_ok world_device)) = self world_device /\
  fst (connect_junos_shell env_ok world_device)
    = match lib env_ok (StartShellInit 0) with
      | None => Ok (next_handle world_device) | Some e => Err e end.
Proof.
  apply (junos_shell_reuses_cached_device env_ok world_device 0). reflexivity.
Defined.

(** With no device cached and the device opening, [connect_junos_shell]
    connects through [junos_open_connection()] without arguments (no
    hostname, user or password; port 22) and caches the device before the
    shell is made, so a failing [StartShell] leaves that device cached and
    open. *)
Theorem junos_shell_opens_default_device E w :
  _junos_device (self w) = None ->
  lib E (DeviceInit (next_handle w) None None None (Some 22)) = None ->
  lib E (DeviceOpen (next_handle w)) = None ->
  trace (snd (connect_junos_shell E w))
    = (trace w ++ [DeviceInit (next_handle w) None None None (Some 22);
                   DeviceOpen (next_handle w); StartShellInit (next_handle w)])%list /\
  self (snd (connect_junos_shell E w)) = set_junos_device (Some (next_handle w)) (self w) /\
  fst (connect_junos_shell E w)
    = match lib E (StartShellInit (next_handle w)) with
      | None => Ok (S (next_handle w)) | Some e => Err e end.
Proof.
  intros Hd Hi Ho. unfold connect_junos_shell. run. rewrite Hd. cbn.
  rewrite Hi. cbn. rewrite Ho. cbn.
  destruct (lib E (StartShellInit (next_handle w))); cbn;
    rewrite <- ?app_assoc; repeat split.
Qed.

Lemma junos_shell_opens_default_device_witness :
  trace (snd (connect_junos_shell env_ok world0))
    = (trace world0 ++ [DeviceInit (next_handle world0) None None None (Some 22);
                        DeviceOpen (next_handle world0); StartShellInit (next_handle world0)])%list /\
  self (snd (connect_junos_shell env_ok world0))
    = set_junos_device (Some (next_handle world0)) (self world0) /\
  fst (connect_junos_shell env_ok world0)
    = match lib env_ok (StartShellInit (next_handle world0)) with
      | None => Ok (S (next_handle world0)) | Some e => Err e end.
Proof.
  apply (junos_shell_opens_default_device env_ok world0); reflexivity.
Defined.


(** * The message sent by [send_email] *)

(** With every required parameter given and no attachment to add,
    [send_email] leaves the manager alone and connects to the SMTP server;
    once connected it sends one message, then always runs [QUIT], and
    prints its confirmation only when both succeeded. The message's
    headers are those of [MIMEMultipart()], then [Date] (the current
    time), [From], [To], [Subject], and [Cc] exactly when a non-empty CC
    list is given; its single part is the HTML body built from the
    greeting, the body and the configured footer ([""] when absent). The
    exception of a failing [QUIT] wins over the one of [send_message]; the
    result is [True] only when all four calls succeed. *)
Theorem send_email_builds_message E w email_from email_to email_subject email_body greeting
    cc_emails destination_path attach_list smtp_server smtp_port :
  truthy email_from = true -> truthy email_to = true -> truthy email_subject = true ->
  truthy greeting = true -> truthy email_body = true ->
  truthy_list attach_list && truthy destination_path = false ->
  let hdrs := ([("Content-Type", "multipart/mixed"); ("MIME-Version", "1.0");
                ("Date", now E); ("From", str_opt email_from); ("To", str_opt email_to);
                ("Subject", str_opt email_subject)] ++
               (if truthy_list cc_emails
                then [("Cc", String.concat ", " (list_of_opt cc_emails))] else []))%list in
  let msg := mkMessage hdrs
               [MIMEText_html (html_body (str_opt greeting) (str_opt email_body)
                                 (_get_config E "email_data" "email_footer" ""))] in
  let text := "✓ Email sent to " ++ str_opt email_to in
  let run := send_email E email_from email_to email_subject email_body greeting cc_emails
               destination_path attach_list smtp_server smtp_port w in
  self (snd run) = self w /\
  trace (snd run)
    = (trace w ++ SMTPConnect smtp_server smtp_port ::
         match lib E (SMTPConnect smtp_server smtp_port) with
         | Some _ => []
         | None =>
             SMTPSendMessage msg :: SMTPQuit smtp_server smtp_port ::
               match lib E (SMTPSendMessage msg), lib E (SMTPQuit smtp_server smtp_port) with
               | None, None => [PrintStdout text]
               | _, _ => []
               end
         end)%list /\
  fst run = match lib E (SMTPConnect smtp_server smtp_port) with
            | Some e => Err e
            | None =>
                match lib E (SMTPQuit smtp_server smtp_port) with
                | Some e => Err e
                | None =>
                    match lib E (SMTPSendMessage msg) with
                    | Some e => Err e
                    | None => match lib E (PrintStdout text) with
                              | None => Ok true | Some e => Err e end
                    end
                end
            end.
Proof.
  intros H1 H2 H3 H4 H5 Ha hdrs msg text run. subst hdrs msg text run.
  unfold send_email. cbn [forallb]. rewrite H1, H2, H3, H4, H5. cbn [andb negb].
  rewrite Ha. unfold try_except, bind, log, lib_call, ret, raise; cbn.
  destruct (truthy_list cc_emails);
    destruct (lib E (SMTPConnect smtp_server smtp_port)); cbn;
    try destruct (lib E (SMTPSendMessage _)); cbn;
    try destruct (lib E (SMTPQuit smtp_server smtp_port)); cbn;
    try destruct (lib E (PrintStdout _)); cbn;
    rewrite <- ?app_assoc; repeat split.
Qed.

Lemma send_email_builds_message_witness :
  let hdrs := ([("Content-Type", "multipart/mixed"); ("MIME-Version", "1.0");
                ("Date", now env_ok); ("From", str_opt (Some "a@x"));
                ("To", str_opt (Some "b@x")); ("Subject", str_opt (Some "s"))] ++
               (if truthy_list (Some ["c@x"])
                then [("Cc", String.concat ", " (list_of_opt (Some ["c@x"])))] else []))%list in
  let msg := mkMessage hdrs
               [MIMEText_html (html_body (str_opt (Some "Hi")) (str_opt (Some "body"))
                                 (_get_config env_ok "email_data" "email_footer" ""))] in
  let text := "✓ Email sent to " ++ str_opt (Some "b@x") in
  let run := send_email env_ok (Some "a@x") (Some "b@x") (Some "s") (Some "body") (Some "Hi")
               (Some ["c@x"]) None None "localhost" 25 world0 in
  self (snd run) = self world0 /\
  trace (snd run)
    = (trace world0 ++ SMTPConnect "localhost" 25 ::
         match lib env_ok (SMTPConnect "localhost" 25) with
         | Some _ => []
         | None =>
             SMTPSendMessage msg :: SMTPQuit "localhost" 25 ::
               match lib env_ok (SMTPSendMessage msg), lib env_ok (SMTPQuit "localhost" 25) with
               | None, None => [PrintStdout text]
               | _, _ => []
               end
         end)%list /\
  fst run = match lib env_ok (SMTPConnect "localhost" 25) with
            | Some e => Err e
            | None =>
                match lib env_ok (SMTPQuit "localhost" 25) with
                | Some e => Err e
                | None =>
                    match lib env_ok (SMTPSendMessage msg) with
                    | Some e => Err e
                    | None => match lib env_ok (PrintStdout text) with
                              | None => Ok true | Some e => Err e end
                    end
                end
            end.
Proof.
  apply (send_email_builds_message env_ok world0 (Some "a@x") (Some "b@x") (Some "s")
           (Some "body") (Some "Hi") (Some ["c@x"]) None None "localhost" 25);
    reflexivity.
Defined.


